(** * subextractor: the HTTP front end of the subtitle-extraction script

    A shallow embedding of [server.py].  The handler's three methods
    ([process_request], [do_GET], [do_POST]) and [run_server] are written
    as programs of a small trace-and-exception monad: every call the
    source makes on the socket ([send_response], [send_header],
    [end_headers], [wfile.write]), on the log ([print]) and on the
    operating system ([subprocess.run], [HTTPServer], [serve_forever]) is
    an event of the trace, in source order.

    What the source imports is not part of it and is taken as given:
    - the Python library functions it calls ([urlparse], [parse_qs],
      [json.loads], [int] on a string, the texts of reprs) form the
      interface [PyLib];
    - the machine the server runs on (which paths exist, which
      descriptors are open, what running the script yields, how large a
      buffer can be, the environment variables) is a [World].

    Conventions.  A Python [str] is represented by its encoding under
    UTF-8 with the [surrogatepass] handler, so a string may hold lone
    surrogates (as [json.loads] returns for an escaped one);
    [bytes.decode('utf-8')] is a check of well-formed UTF-8 and
    [str.encode('utf-8')] fails on exactly the strings that are not.
    Writing to the socket and to the log is assumed to succeed on
    whatever it is given.  Exceptions are those deriving from
    [Exception].  Integers as wide as an index are those of a 64-bit
    interpreter. *)

From Stdlib Require Import ZArith String Ascii List Bool Lia.
From stdpp Require Import base option list strings gmap pretty.
Import ListNotations.

#[local] Set Warnings "-register-all".
#[local] Open Scope Z_scope.
#[local] Open Scope string_scope.

(** ** Python objects *)

(** The objects [json.loads] can return, which are also all the objects
    that can reach [process_request].  A float is kept as its IEEE-754
    binary64 bit pattern. *)
Inductive value : Type :=
| VNone
| VBool (b : bool)
| VInt (z : Z)
| VFloat (bits : Z)
| VStr (s : string)
| VList (l : list value)
| VDict (d : gmap string value).

Inductive exn_class : Type :=
| JSONDecodeError
| UnicodeDecodeError
| UnicodeEncodeError
| ValueError
| TypeError
| AttributeError
| IndexError
| OverflowError
| MemoryError
| OSError
| OtherException (name : string).

(** An exception object: its class and [str(e)]. *)
Record exn : Type := Exn { exn_type : exn_class; exn_str : string }.

Inductive outcome (A : Type) : Type :=
| Return (a : A)
| Raise (e : exn).
Arguments Return {A} a.
Arguments Raise {A} e.

(** [type(v).__name__] *)
Definition type_name (v : value) : string :=
  match v with
  | VNone => "NoneType"
  | VBool _ => "bool"
  | VInt _ => "int"
  | VFloat _ => "float"
  | VStr _ => "str"
  | VList _ => "list"
  | VDict _ => "dict"
  end.

(** [bool(v)], the test behind [if not target_path]. *)
Definition truthy (v : value) : bool :=
  match v with
  | VNone => false
  | VBool b => b
  | VInt z => negb (Z.eqb z 0)
  | VFloat bits => negb (Z.eqb (Z.land bits (Z.ones 63)) 0)
  | VStr s => negb (bool_decide (s = ""))
  | VList l => negb (bool_decide (l = []))
  | VDict d => negb (bool_decide (d = ∅))
  end.

Definition LF : string := String "010"%char "".

(** ** Well-formed UTF-8 *)

Definition byte_in (lo hi : N) (a : ascii) : bool :=
  ((lo <=? N_of_ascii a) && (N_of_ascii a <=? hi))%N.

Definition continuation : ascii -> bool := byte_in 128 191.

(** Lead byte and first continuation byte of a three-byte sequence:
    no overlong form, no surrogate. *)
Definition lead3 (b0 b1 : ascii) : bool :=
  (byte_in 224 224 b0 && byte_in 160 191 b1)
  || (byte_in 225 236 b0 && continuation b1)
  || (byte_in 237 237 b0 && byte_in 128 159 b1)
  || (byte_in 238 239 b0 && continuation b1).

(** The same for four bytes: no overlong form, nothing above U+10FFFF. *)
Definition lead4 (b0 b1 : ascii) : bool :=
  (byte_in 240 240 b0 && byte_in 144 191 b1)
  || (byte_in 241 243 b0 && continuation b1)
  || (byte_in 244 244 b0 && byte_in 128 143 b1).

(** Well-formed UTF-8: what [decode] accepts, and what a string must be
    for [encode] to accept it. *)
Fixpoint utf8_valid (b : string) : bool :=
  match b with
  | EmptyString => true
  | String b0 r0 =>
    if byte_in 0 127 b0 then utf8_valid r0 else
    match r0 with
    | EmptyString => false
    | String b1 r1 =>
      if byte_in 194 223 b0 then continuation b1 && utf8_valid r1 else
      match r1 with
      | EmptyString => false
      | String b2 r2 =>
        if lead3 b0 b1 then continuation b2 && utf8_valid r2 else
        match r2 with
        | EmptyString => false
        | String b3 r3 =>
          lead4 b0 b1 && continuation b2 && continuation b3 && utf8_valid r3
        end
      end
    end
  end.

(** ** The standard library, as an interface *)

Module urllib.
(** The two attributes of [urlparse]'s result the handler reads. *)
Record ParseResult : Type := { path : string; query : string }.
End urllib.

Class PyLib : Type := {
  urlparse : string -> outcome urllib.ParseResult;
  parse_qs : string -> gmap string (list string);
  json_loads : string -> outcome value;
  (** [int(s)] for a [str] *)
  int_of_str : string -> outcome Z;
  (** [int(x)] for a [float], given by its bits *)
  int_of_float : Z -> outcome Z;
  (** [str(x)] for a float, a list or a dict *)
  str_of_object : value -> string;
  (** the text [print] shows for the dictionary of query parameters *)
  str_of_query : gmap string (list string) -> string;
  (** the text of the [UnicodeDecodeError] raised on these bytes *)
  utf8_error_text : string -> string;
  (** the text of the [UnicodeEncodeError] raised on this string *)
  encode_error_text : string -> string;
  (** the values [parse_qs] builds hold no lone surrogate: the request
      line is decoded as Latin-1 and escapes are decoded with
      [errors='replace'] *)
  parse_qs_text : forall qs name vals,
    parse_qs qs !! name = Some vals -> Forall (fun v => utf8_valid v = true) vals;
  (** the text of a [UnicodeDecodeError] shows bytes as hexadecimal *)
  utf8_error_text_valid : forall b, utf8_valid (utf8_error_text b) = true;
}.

(** ** The machine *)

Record CompletedProcess : Type :=
  { returncode : Z; stdout : string; stderr : string }.

(** Why a buffer for a read cannot be had. *)
Inductive read_fault : Type := OutOfMemory | ByteStringTooLarge.

Record World : Type := {
  (** [os.stat] succeeds on this path name *)
  fs_exists : string -> bool;
  (** [os.stat] succeeds on this file descriptor *)
  fd_open : Z -> bool;
  (** what [subprocess.run(args, capture_output=True, text=True,
      check=False)] does: the completed process, or the exception of a
      process that could not be run or whose output is not text *)
  run_process : list value -> outcome CompletedProcess;
  (** [os.environ] *)
  environ : gmap string string;
  (** the exception [HTTPServer] raises when it cannot bind the address *)
  bind_error : string * Z -> option exn;
  (** whether the buffer for a read of that many bytes cannot be had *)
  read_fault_at : Z -> option read_fault;
  (** the empty name is no file *)
  fs_exists_empty : fs_exists "" = false;
  (** with [text=True] the captured output is decoded strictly, and the
      texts of the exceptions show file names and bytes escaped *)
  run_process_text : forall args,
    match run_process args with
    | Return cp => utf8_valid (stdout cp) = true /\ utf8_valid (stderr cp) = true
    | Raise e => utf8_valid (exn_str e) = true
    end;
}.

(** ** Events and the monad of handlers *)

Record run_options : Type :=
  { capture_output : bool; text : bool; check : bool }.

Inductive event : Type :=
| SendResponse (code : Z)
| SendHeader (keyword val : string)
| EndHeaders
| Write (data : string)
| Print (line : string)
| Subprocess (args : list value) (opts : run_options)
| HTTPServerInit (server_address : string * Z)
| ServeForever (server_address : string * Z).

(** A computation: the events it performed, and how it ended. *)
Definition IO (A : Type) : Type := list event * outcome A.

#[export] Instance IO_ret : MRet IO := fun A a => ([], Return a).

#[export] Instance IO_bind : MBind IO := fun A B f m =>
  match m with
  | (t, Return a) => let '(t', o) := f a in ((t ++ t')%list, o)
  | (t, Raise e) => (t, Raise e)
  end.

Definition emit (e : event) : IO unit := ([e], Return tt).

Definition lift {A} (o : outcome A) : IO A := ([], o).

(** [try: body / except Exception as e: handler e] *)
Definition try_except {A} (body : IO A) (handler : exn -> IO A) : IO A :=
  match body with
  | (t, Return a) => (t, Return a)
  | (t, Raise e) => let '(t', o) := handler e in ((t ++ t')%list, o)
  end.

Notation "m1 ;; m2" := (mbind (fun _ : unit => m2) m1)
  (at level 100, m2 at level 200, right associativity, only parsing) : stdpp_scope.

Definition trace {A} (m : IO A) : list event := m.1.
Definition result {A} (m : IO A) : outcome A := m.2.

(** ** Library functions with a fixed meaning *)

(** [str(v)], what an f-string puts for [{v}]. *)
Definition py_str `{PyLib} (v : value) : string :=
  match v with
  | VNone => "None"
  | VBool true => "True"
  | VBool false => "False"
  | VInt z => pretty z
  | VStr s => s
  | VFloat _ | VList _ | VDict _ => str_of_object v
  end.

Section Library.
Context `{PyLib}.

(** [x.encode('utf-8')]: the string itself, unless it holds a lone
    surrogate. *)
Definition encode_utf8 (s : string) : outcome string :=
  if utf8_valid s then Return s
  else Raise (Exn UnicodeEncodeError (encode_error_text s)).

(** [b.decode('utf-8')] *)
Definition decode_utf8 (b : string) : outcome string :=
  if utf8_valid b then Return b
  else Raise (Exn UnicodeDecodeError (utf8_error_text b)).

(** [int(x)] *)
Definition py_int (x : value) : outcome Z :=
  match x with
  | VInt z => Return z
  | VBool b => Return (Z.b2z b)
  | VStr s => int_of_str s
  | VFloat bits => int_of_float bits
  | VNone | VList _ | VDict _ =>
    Raise (Exn TypeError
      ("int() argument must be a string, a bytes-like object or a real number, not '"
         ++ type_name x ++ "'"))
  end.

(** [x.get(key)]: the dictionary method, an [AttributeError] on
    anything that is not a dictionary. *)
Definition py_get (x : value) (key : string) : outcome value :=
  match x with
  | VDict d => Return (default VNone (d !! key))
  | _ =>
    Raise (Exn AttributeError
      ("'" ++ type_name x ++ "' object has no attribute 'get'"))
  end.

(** [l[0]] *)
Definition first_item (l : list value) : outcome value :=
  match l with
  | x :: _ => Return x
  | [] => Raise (Exn IndexError "list index out of range")
  end.
End Library.

Definition ascii_lower (a : ascii) : ascii :=
  if byte_in 65 90 a then ascii_of_N (N_of_ascii a + 32) else a.

Fixpoint lower (s : string) : string :=
  match s with
  | EmptyString => EmptyString
  | String a r => String (ascii_lower a) (lower r)
  end.

(** [headers[name]]: the first field of that name, compared without
    case, [None] when there is none. *)
Fixpoint headers_getitem (headers : list (string * string)) (name : string) : value :=
  match headers with
  | [] => VNone
  | (k, v) :: rest =>
    if bool_decide (lower k = lower name) then VStr v
    else headers_getitem rest name
  end.

(** The largest index, [sys.maxsize]. *)
Definition PY_SSIZE_T_MAX : Z := 2 ^ 63 - 1.

(** [rfile.read(n)] on a buffered reader holding [stream] up to its end.
    A length that is no index is an [OverflowError], a length below -1 a
    [ValueError]; -1 reads to the end; otherwise a buffer of [n] bytes
    is made, if the machine can, and at most [n] bytes are read. *)
Definition rfile_read (w : World) (stream : string) (n : Z) : outcome string :=
  if Z.ltb n (- PY_SSIZE_T_MAX - 1) || Z.ltb PY_SSIZE_T_MAX n then
    Raise (Exn OverflowError "cannot fit 'int' into an index-sized integer")
  else if Z.ltb n (-1) then
    Raise (Exn ValueError "read length must be non-negative or -1")
  else if Z.eqb n (-1) then Return stream
  else
    match read_fault_at w n with
    | Some OutOfMemory => Raise (Exn MemoryError "")
    | Some ByteStringTooLarge => Raise (Exn OverflowError "byte string is too large")
    | None => Return (substring 0 (Z.to_nat n) stream)
    end.

Definition C_INT_MIN : Z := - 2 ^ 31.
Definition C_INT_MAX : Z := 2 ^ 31 - 1.

(** [os.path.exists(p)]: [os.stat(p)] with [OSError] and [ValueError]
    turned into [False].  A string is a path name, an integer a file
    descriptor, anything else a [TypeError]. *)
Definition os_path_exists (w : World) (p : value) : outcome bool :=
  match p with
  | VStr s => Return (fs_exists w s)
  | VBool b => Return (fd_open w (Z.b2z b))
  | VInt n =>
    if Z.ltb n C_INT_MIN then Raise (Exn OverflowError "fd is less than minimum")
    else if Z.ltb C_INT_MAX n then Raise (Exn OverflowError "fd is greater than maximum")
    else Return (fd_open w n)
  | VNone | VFloat _ | VList _ | VDict _ =>
    Raise (Exn TypeError
      ("stat: path should be string, bytes, os.PathLike or integer, not "
         ++ type_name p))
  end.

(** ** The calls of the source that leave an event *)

Definition send_response (code : Z) : IO unit := emit (SendResponse code).
Definition send_header (keyword val : string) : IO unit := emit (SendHeader keyword val).
Definition end_headers : IO unit := emit EndHeaders.
Definition wfile_write (data : string) : IO unit := emit (Write data).
Definition print (line : string) : IO unit := emit (Print line).

(** [subprocess.run(args, capture_output=True, text=True, check=False)]:
    one call, which returns when the process has ended. *)
Definition subprocess_run (w : World) (args : list value) (opts : run_options)
  : IO CompletedProcess :=
  ([Subprocess args opts], run_process w args).

(** [HTTPServer(server_address, RequestHandler)] *)
Definition HTTPServer (w : World) (server_address : string * Z) : IO (string * Z) :=
  ([HTTPServerInit server_address],
   match bind_error w server_address with
   | Some e => Raise e
   | None => Return server_address
   end).

(** [httpd.serve_forever()]; what the server does from then on is the
    handler's business, one request at a time. *)
Definition serve_forever (httpd : string * Z) : IO unit := emit (ServeForever httpd).

(** ** The request a handler object holds *)

Record Request : Type := {
  (** [self.path], the request target as received *)
  path : string;
  (** [self.headers], in the order received *)
  headers : list (string * string);
  (** the bytes [self.rfile] yields after the headers, up to its end *)
  rfile : string;
  client_address : string * Z;
  requestline : string;
  (** what [self.log_date_time_string()] returns for this request *)
  log_date_time_string : string;
}.

(** Path to the subtitle extraction script inside the container *)
Definition EXTRACT_SCRIPT_PATH : string := "/scripts/extractor.sh".

Module RequestHandler.
Section Handler.
Context `{PyLib} (w : World).

(** Shared logic to validate a path and run the extraction script. *)
Definition process_request (target_path : value) : IO unit :=
  if negb (truthy target_path) then
    send_response 400;;
    send_header "Content-type" "text/plain";;
    end_headers;;
    wfile_write "Error: 'path' parameter is required in the URL query or JSON body."
  else
  found ← lift (os_path_exists w target_path);
  if negb found then
    send_response 400;;
    send_header "Content-type" "text/plain";;
    end_headers;;
    let response_text :=
      "Error: The specified path does not exist inside the container: '"
        ++ py_str target_path ++ "'" in
    data ← lift (encode_utf8 response_text);
    wfile_write data
  else
  try_except
    (print ("Executing script for path: " ++ py_str target_path);;
     result ← subprocess_run w [VStr EXTRACT_SCRIPT_PATH; target_path]
                {| capture_output := true; text := true; check := false |};
     print ("Script stdout:" ++ LF ++ stdout result);;
     (if truthy (VStr (stderr result))
      then print ("Script stderr:" ++ LF ++ stderr result)
      else mret tt);;
     if Z.eqb (returncode result) 0 then
       send_response 200;;
       send_header "Content-type" "text/plain";;
       end_headers;;
       let response_body :=
         "Successfully processed '" ++ py_str target_path ++ "'." ++ LF ++ LF
           ++ "--- SCRIPT OUTPUT ---" ++ LF ++ stdout result in
       data ← lift (encode_utf8 response_body);
       wfile_write data
     else
       send_response 500;;
       send_header "Content-type" "text/plain";;
       end_headers;;
       let response_body :=
         "Script failed to process '" ++ py_str target_path ++ "'." ++ LF ++ LF
           ++ "--- SCRIPT ERROR ---" ++ LF ++ stderr result ++ LF ++ LF
           ++ "--- SCRIPT OUTPUT ---" ++ LF ++ stdout result in
       data ← lift (encode_utf8 response_body);
       wfile_write data)
    (fun e =>
       send_response 500;;
       send_header "Content-type" "text/plain";;
       end_headers;;
       data ← lift (encode_utf8 ("An unexpected server error occurred: " ++ exn_str e));
       wfile_write data).

(** Handles GET requests. Expects an /extract endpoint with a 'path'
    parameter. *)
Definition do_GET (self : Request) : IO unit :=
  print (LF ++ "--- New GET Request Received ---");;
  print ("Timestamp: " ++ log_date_time_string self);;
  print ("Request from: " ++ (client_address self).1 ++ ":" ++ pretty (client_address self).2);;
  print ("Request line: " ++ requestline self);;
  parsed_path ← lift (urlparse (path self));
  let query_params := parse_qs (urllib.query parsed_path) in
  print ("Parsed Path: " ++ urllib.path parsed_path);;
  print ("Query Params: " ++ str_of_query query_params);;
  print "--------------------------";;
  if bool_decide (urllib.path parsed_path = "/extract") then
    target_path ← lift (first_item
                          (default [VNone] (List.map VStr <$> query_params !! "path")));
    process_request target_path
  else
    send_response 404;;
    send_header "Content-type" "text/plain";;
    end_headers;;
    wfile_write "Not Found. Please use the /extract endpoint.".

(** Handles POST requests. Expects an /extract endpoint with a JSON
    body containing a 'path' key. *)
Definition do_POST (self : Request) : IO unit :=
  print (LF ++ "--- New POST Request Received ---");;
  print ("Timestamp: " ++ log_date_time_string self);;
  print ("Request from: " ++ (client_address self).1 ++ ":" ++ pretty (client_address self).2);;
  print ("Request line: " ++ requestline self);;
  parsed_path ← lift (urlparse (path self));
  if bool_decide (urllib.path parsed_path = "/extract") then
    try_except
      (content_length ← lift (py_int (headers_getitem (headers self) "Content-Length"));
       body ← lift (rfile_read w (rfile self) content_length);
       body_str ← lift (decode_utf8 body);
       print ("Request Body: " ++ body_str);;
       print "--------------------------";;
       data ← lift (json_loads body_str);
       target_path ← lift (py_get data "path");
       process_request target_path)
      (fun e =>
         match exn_type e with
         | JSONDecodeError =>
           send_response 400;;
           send_header "Content-type" "text/plain";;
           end_headers;;
           wfile_write "Error: Invalid JSON in request body."
         | _ =>
           send_response 500;;
           send_header "Content-type" "text/plain";;
           end_headers;;
           data ← lift (encode_utf8
             ("An unexpected server error occurred while processing POST request: "
                ++ exn_str e));
           wfile_write data
         end)
  else
    send_response 404;;
    send_header "Content-type" "text/plain";;
    end_headers;;
    wfile_write "Not Found. Please use the /extract endpoint for POST requests.".
End Handler.
End RequestHandler.

(** Starts the HTTP server on the configured port. *)
Definition run_server `{PyLib} (w : World) : IO unit :=
  port ← lift (py_int (match environ w !! "LISTEN_PORT" with
                       | Some s => VStr s
                       | None => VInt 8080
                       end));
  let server_address := ("", port) in
  httpd ← HTTPServer w server_address;
  print ("Server starting on port " ++ pretty port ++ "...");;
  serve_forever httpd.

(** ** Reading a trace *)

Inductive method : Type := GET | POST.

(** What [BaseHTTPRequestHandler] calls for the request's method. *)
Definition handle `{PyLib} (w : World) (m : method) (self : Request) : IO unit :=
  match m with
  | GET => RequestHandler.do_GET w self
  | POST => RequestHandler.do_POST w self
  end.

(** The events that put bytes on the connection. *)
Definition on_wire (e : event) : bool :=
  match e with
  | SendResponse _ | SendHeader _ _ | EndHeaders | Write _ => true
  | _ => false
  end.

(** What the client is sent, in order. *)
Definition wire (t : list event) : list event := List.filter on_wire t.

(** A complete response: status line, the one header, the body. *)
Definition plain_text (code : Z) (body : string) : list event :=
  [SendResponse code; SendHeader "Content-type" "text/plain"; EndHeaders; Write body].

Definition statuses (t : list event) : list Z :=
  omap (fun e => match e with SendResponse c => Some c | _ => None end) t.

(** The process invocations, each with its argument vector and options. *)
Definition spawns (t : list event) : list (list value * run_options) :=
  omap (fun e => match e with Subprocess a o => Some (a, o) | _ => None end) t.

(** The address the listener was created with. *)
Definition server_port (t : list event) : option Z :=
  head (omap (fun e => match e with HTTPServerInit a => Some a.2 | _ => None end) t).

(** The lines written to the server's log, in order. *)
Definition logged (t : list event) : list string :=
  omap (fun e => match e with Print s => Some s | _ => None end) t.

(** The request is routed to /extract and the adapter of its method
    hands this target to [process_request]. *)
Inductive extracts `{PyLib} (w : World) : method -> Request -> value -> Prop :=
| extracts_GET self u t :
    urlparse (path self) = Return u ->
    urllib.path u = "/extract" ->
    first_item (default [VNone] (List.map VStr <$> parse_qs (urllib.query u) !! "path"))
      = Return t ->
    extracts w GET self t
| extracts_POST self u n body s data t :
    urlparse (path self) = Return u ->
    urllib.path u = "/extract" ->
    py_int (headers_getitem (headers self) "Content-Length") = Return n ->
    rfile_read w (rfile self) n = Return body ->
    decode_utf8 body = Return s ->
    json_loads s = Return data ->
    py_get data "path" = Return t ->
    extracts w POST self t.

(** What the [try] block of [do_POST] computes before it calls the
    shared routine: the target, or the first exception on the way. *)
Definition post_target `{PyLib} (w : World) (self : Request) : outcome value :=
  match py_int (headers_getitem (headers self) "Content-Length") with
  | Raise e => Raise e
  | Return content_length =>
    match rfile_read w (rfile self) content_length with
    | Raise e => Raise e
    | Return body =>
      match decode_utf8 body with
      | Raise e => Raise e
      | Return body_str =>
        match json_loads body_str with
        | Raise e => Raise e
        | Return data => py_get data "path"
        end
      end
    end
  end.

(** The lines both methods log before they look at the route. *)
Definition request_log (name : string) (self : Request) : list event :=
  [Print (LF ++ "--- New " ++ name ++ " Request Received ---");
   Print ("Timestamp: " ++ log_date_time_string self);
   Print ("Request from: " ++ (client_address self).1 ++ ":" ++ pretty (client_address self).2);
   Print ("Request line: " ++ requestline self)].

(** The texts of the fixed responses. *)
Definition REQUIRED : string :=
  "Error: 'path' parameter is required in the URL query or JSON body.".
Definition INVALID_JSON : string := "Error: Invalid JSON in request body.".
Definition NOT_FOUND (m : method) : string :=
  match m with
  | GET => "Not Found. Please use the /extract endpoint."
  | POST => "Not Found. Please use the /extract endpoint for POST requests."
  end.
Definition RUN_OPTIONS : run_options :=
  {| capture_output := true; text := true; check := false |}.

(** What is logged about the captured standard error. *)
Definition stderr_log (cp : CompletedProcess) : list event :=
  if bool_decide (stderr cp = "") then []
  else [Print ("Script stderr:" ++ LF ++ stderr cp)].

(** The response written for a process that ran to its end. *)
Definition report (p : string) (cp : CompletedProcess) : list event :=
  if Z.eqb (returncode cp) 0 then
    plain_text 200
      ("Successfully processed '" ++ p ++ "'." ++ LF ++ LF
         ++ "--- SCRIPT OUTPUT ---" ++ LF ++ stdout cp)
  else
    plain_text 500
      ("Script failed to process '" ++ p ++ "'." ++ LF ++ LF
         ++ "--- SCRIPT ERROR ---" ++ LF ++ stderr cp ++ LF ++ LF
         ++ "--- SCRIPT OUTPUT ---" ++ LF ++ stdout cp).

(** Everything the routine does once the script was called on a path
    that can be encoded. *)
Definition after_start (p : string) (r : outcome CompletedProcess) : list event :=
  match r with
  | Return cp =>
    (Print ("Script stdout:" ++ LF ++ stdout cp) :: stderr_log cp ++ report p cp)%list
  | Raise e => plain_text 500 ("An unexpected server error occurred: " ++ exn_str e)
  end.

(** A stretch of a trace that starts no process and reports no success. *)
Definition quiet (t : list event) : Prop :=
  spawns t = [] /\ ~ In 200 (statuses t).

(** The same request with other bytes waiting on [rfile]. *)
Definition with_rfile (self : Request) (stream : string) : Request := {|
  path := path self;
  headers := headers self;
  rfile := stream;
  client_address := client_address self;
  requestline := requestline self;
  log_date_time_string := log_date_time_string self;
|}.

(** The port [run_server] asks [int] for. *)
Definition port_setting (w : World) : value :=
  match environ w !! "LISTEN_PORT" with
  | Some s => VStr s
  | None => VInt 8080
  end.

(** A necessary condition for a text to be JSON (RFC 8259): after the
    blanks, its first character opens a value. *)
Fixpoint skip_blanks (s : string) : string :=
  match s with
  | String a r =>
    if byte_in 32 32 a || byte_in 9 10 a || byte_in 13 13 a then skip_blanks r else s
  | EmptyString => EmptyString
  end.

Definition opens_json_value (s : string) : bool :=
  match skip_blanks s with
  | String a _ =>
    byte_in 123 123 a || byte_in 91 91 a || byte_in 34 34 a || byte_in 45 45 a
    || byte_in 48 57 a || byte_in 116 116 a || byte_in 102 102 a || byte_in 110 110 a
  | EmptyString => false
  end.

(** ** A library and machines for the examples

    [example_lib] stands for the Python library on the inputs the examples
    below feed it: request targets of the shape [path] or [path?query]
    (no fragment, no parameters, no authority), queries of at most one
    field [name=value] without escapes, decimal numerals with at most a
    minus sign, and the JSON texts of [example_json]. *)

Fixpoint split_at (c : ascii) (s : string) : string * option string :=
  match s with
  | EmptyString => (EmptyString, None)
  | String a r =>
    if Ascii.eqb a c then (EmptyString, Some r)
    else let '(before, after) := split_at c r in (String a before, after)
  end.

Definition example_urlparse (url : string) : outcome urllib.ParseResult :=
  let '(p, q) := split_at "?" url in
  Return {| urllib.path := p; urllib.query := default "" q |}.

Definition example_parse_qs (qs : string) : gmap string (list string) :=
  match split_at "=" qs with
  | (name, Some val) =>
    if bool_decide (name = "") || bool_decide (val = "") || negb (utf8_valid val) then ∅
    else {[ name := [val] ]}
  | (_, None) => ∅
  end.

Definition digit_value (a : ascii) : option Z :=
  if byte_in 48 57 a then Some (Z.of_N (N_of_ascii a) - 48) else None.

Fixpoint decimal (acc : Z) (s : string) : option Z :=
  match s with
  | EmptyString => Some acc
  | String a r =>
    match digit_value a with
    | Some d => decimal (10 * acc + d) r
    | None => None
    end
  end.

(** [int] on digits, with or without a minus sign before them. *)
Definition example_int (s : string) : outcome Z :=
  match
    match s with
    | EmptyString => None
    | String "-" EmptyString => None
    | String "-" r => Z.opp <$> decimal 0 r
    | _ => decimal 0 s
    end
  with
  | Some z => Return z
  | None =>
    if utf8_valid s then
      Raise (Exn ValueError ("invalid literal for int() with base 10: '" ++ s ++ "'"))
    else Raise (Exn ValueError "invalid literal for int() with base 10")
  end.

Definition DQ : string := String "034"%char "".

(** [{"path": p}] for a string [p] written as it stands. *)
Definition path_json (p : string) : string :=
  "{" ++ DQ ++ "path" ++ DQ ++ ": " ++ DQ ++ p ++ DQ ++ "}".

(** [{"path": "/data/movie.mkv"}] *)
Definition movie_json : string := path_json "/data/movie.mkv".

(** [{"path": ["a"]}] and [{"path": 0}] *)
Definition list_path_json : string :=
  "{" ++ DQ ++ "path" ++ DQ ++ ": [" ++ DQ ++ "a" ++ DQ ++ "]}".
Definition zero_path_json : string :=
  "{" ++ DQ ++ "path" ++ DQ ++ ": 0}".

(** The lone surrogates U+D800 and U+DCFF as strings, and the JSON
    texts that escape them: [{"path": "\ud800"}] and
    [{"path": "/data/\udcff.mkv"}]. *)
Definition U_D800 : string := String "237" (String "160" (String "128" "")).
Definition U_DCFF : string := String "237" (String "179" (String "191" "")).
Definition surrogate_path_json : string := path_json "\ud800".
Definition escaped_name : string := "/data/" ++ U_DCFF ++ ".mkv".
Definition escaped_name_json : string := path_json "/data/\udcff.mkv".

(** The quiet NaN, as [json.loads] returns it for the text [NaN]. *)
Definition NAN_BITS : Z := 9221120237041090560.

Definition example_json (s : string) : outcome value :=
  if bool_decide (s = movie_json) then Return (VDict {[ "path" := VStr "/data/movie.mkv" ]})
  else if bool_decide (s = "{}") then Return (VDict ∅)
  else if bool_decide (s = "[]") then Return (VList [])
  else if bool_decide (s = list_path_json) then Return (VDict {[ "path" := VList [VStr "a"] ]})
  else if bool_decide (s = zero_path_json) then Return (VDict {[ "path" := VInt 0 ]})
  else if bool_decide (s = surrogate_path_json) then Return (VDict {[ "path" := VStr U_D800 ]})
  else if bool_decide (s = escaped_name_json) then Return (VDict {[ "path" := VStr escaped_name ]})
  else if bool_decide (s = "NaN") then Return (VFloat NAN_BITS)
  else Raise (Exn JSONDecodeError "Expecting value: line 1 column 1 (char 0)").

(** The text of a dictionary of query parameters, for values without
    quotes or escapes. *)
Definition example_query_text (q : gmap string (list string)) : string :=
  let quoted (s : string) := "'" ++ s ++ "'" in
  let field (kv : string * list string) :=
    quoted kv.1 ++ ": [" ++ String.concat ", " (List.map quoted kv.2) ++ "]" in
  "{" ++ String.concat ", " (List.map field (map_to_list q)) ++ "}".

(** Where the first surrogate of a string stands, counted in bytes (the
    examples have only ASCII before it), and which one it is. *)
Fixpoint find_surrogate (pos : Z) (s : string) : option (Z * N) :=
  match s with
  | String b0 (String b1 (String b2 _) as r0) =>
    if byte_in 237 237 b0 && byte_in 160 191 b1
    then Some (pos, 53248 + (N_of_ascii b1 - 128) * 64 + (N_of_ascii b2 - 128))%N
    else find_surrogate (pos + 1) r0
  | String _ r => find_surrogate (pos + 1) r
  | EmptyString => None
  end.

Definition hex_digit (n : N) : string :=
  String (ascii_of_N (if (n <? 10)%N then 48 + n else 87 + n)) "".

Definition hex4 (n : N) : string :=
  hex_digit (n / 4096) ++ hex_digit (n / 256 mod 16)
    ++ hex_digit (n / 16 mod 16) ++ hex_digit (n mod 16).

Definition example_encode_error (s : string) : string :=
  match find_surrogate 0 s with
  | Some (pos, cp) =>
    "'utf-8' codec can't encode character '\u" ++ hex4 cp ++ "' in position "
      ++ pretty pos ++ ": surrogates not allowed"
  | None => "'utf-8' codec can't encode characters: surrogates not allowed"
  end.

(** The examples convert no float and print no float, list or
    dictionary other than the empty ones; the one byte string they fail
    to decode is the byte 0xFF. *)
Definition example_lib : PyLib.
Proof.
  refine {|
    urlparse := example_urlparse;
    parse_qs := example_parse_qs;
    json_loads := example_json;
    int_of_str := example_int;
    int_of_float := fun _ =>
      Raise (Exn OverflowError "cannot convert float infinity to integer");
    str_of_object := fun v => match v with VDict _ => "{}" | _ => "[]" end;
    str_of_query := example_query_text;
    utf8_error_text := fun _ =>
      "'utf-8' codec can't decode byte 0xff in position 0: invalid start byte";
    encode_error_text := example_encode_error;
    parse_qs_text := _;
    utf8_error_text_valid := fun _ => eq_refl;
  |}.
  intros qs name vals. unfold example_parse_qs.
  destruct (split_at "=" qs) as [nm [val|]]; [|now rewrite lookup_empty].
  destruct (bool_decide (nm = "") || bool_decide (val = "")); cbn [orb];
    [now rewrite lookup_empty|].
  destruct (utf8_valid val) eqn:Hval; cbn [negb]; [|now rewrite lookup_empty].
  intros [_ <-]%lookup_singleton_Some. now constructor.
Defined.

(** A machine holding one file, [file], on which the script ends with
    [code], having printed [out] and [err]. *)
Definition script_run (file : string) (code : Z) (out err : string) (args : list value)
  : outcome CompletedProcess :=
  match args with
  | [VStr exe; VStr f] =>
    if bool_decide (exe = EXTRACT_SCRIPT_PATH) && bool_decide (f = file)
    then Return {| returncode := code; stdout := out; stderr := err |}
    else Raise (Exn OSError "[Errno 2] No such file or directory")
  | [VStr exe; v] =>
    Raise (Exn TypeError
      ("expected str, bytes or os.PathLike object, not " ++ type_name v))
  | _ => Raise (Exn OSError "[Errno 2] No such file or directory")
  end.

Definition script_world (file : string) (named : bool_decide (file = "") = false)
    (code : Z) (out err : string)
    (out_text : utf8_valid out = true) (err_text : utf8_valid err = true)
    (env : gmap string string) : World.
Proof.
  refine {|
    fs_exists := fun p => bool_decide (p = file);
    fd_open := fun n => Z.leb 0 n && Z.leb n 2;
    run_process := script_run file code out err;
    environ := env;
    bind_error := fun _ => None;
    read_fault_at := fun n => if Z.ltb (2 ^ 32) n then Some OutOfMemory else None;
    fs_exists_empty := _;
    run_process_text := _;
  |}.
  - rewrite <- named. apply bool_decide_ext. split; congruence.
  - intros args. unfold script_run.
    destruct args as [|a0 args]; [exact eq_refl|].
    destruct a0; try exact eq_refl.
    destruct args as [|v rest]; [exact eq_refl|].
    destruct v, rest; try exact eq_refl.
    destruct (_ && _); [split; assumption | exact eq_refl].
Defined.

Definition movie_world (code : Z) (out err : string)
    (out_text : utf8_valid out = true) (err_text : utf8_valid err = true)
    (env : gmap string string) : World :=
  script_world "/data/movie.mkv" eq_refl code out err out_text err_text env.

(** The machines and requests of the examples. *)
Definition working_world : World := movie_world 0 "done" "" eq_refl eq_refl ∅.
Definition failing_world : World := movie_world 1 "partial" "boom" eq_refl eq_refl ∅.
Definition unparsable_port_world : World :=
  movie_world 0 "" "" eq_refl eq_refl {[ "LISTEN_PORT" := "abc" ]}.


(** A machine holding the file, on which the script cannot be started. *)
Definition broken_script_world : World := {|
  fs_exists := fun p => bool_decide (p = "/data/movie.mkv");
  fd_open := fun n => Z.leb 0 n && Z.leb n 2;
  run_process := fun _ =>
    Raise (Exn OSError "[Errno 2] No such file or directory: '/scripts/extractor.sh'");
  environ := ∅;
  bind_error := fun _ => None;
  read_fault_at := fun _ => None;
  fs_exists_empty := eq_refl;
  run_process_text := fun _ => eq_refl;
|}.

(** A machine on which the port is taken. *)
Definition busy_port_world : World := {|
  fs_exists := fun _ => false;
  fd_open := fun n => Z.leb 0 n && Z.leb n 2;
  run_process := fun _ => Raise (Exn OSError "[Errno 2] No such file or directory");
  environ := ∅;
  bind_error := fun _ => Some (Exn OSError "[Errno 98] Address already in use");
  read_fault_at := fun _ => None;
  fs_exists_empty := eq_refl;
  run_process_text := fun _ => eq_refl;
|}.

Definition example_request (target : string) (hs : list (string * string)) (body : string) : Request := {|
  path := target;
  headers := hs;
  rfile := body;
  client_address := ("127.0.0.1", 50000);
  requestline := "";
  log_date_time_string := "01/Jan/2025 00:00:00";
|}.

Definition get_bare : Request := example_request "/extract" [] "".
Definition get_movie : Request := example_request "/extract?path=/data/movie.mkv" [] "".
Definition get_absent : Request := example_request "/extract?path=/nonexistent/x.mkv" [] "".
Definition get_other : Request := example_request "/other" [] "".
Definition post_movie : Request :=
  example_request "/extract" [("Content-Length", "27")] movie_json.
Definition post_empty_object : Request :=
  example_request "/extract" [("Content-Length", "2")] "{}".
Definition post_array : Request :=
  example_request "/extract" [("Content-Length", "2")] "[]".
Definition post_not_json : Request :=
  example_request "/extract" [("Content-Length", "8")] "not json".
Definition post_byte_ff : Request :=
  example_request "/extract" [("Content-Length", "1")] (String "255"%char "").
Definition post_nan : Request :=
  example_request "/extract" [("Content-Length", "3")] "NaN".
Definition post_no_length : Request := example_request "/extract" [] movie_json.
Definition post_list_path : Request :=
  example_request "/extract" [("Content-Length", "15")] list_path_json.
Definition post_zero_path : Request :=
  example_request "/extract" [("Content-Length", "11")] zero_path_json.
Definition post_bad_length : Request :=
  example_request "/extract" [("Content-Length", "abc")] movie_json.
Definition post_negative_length : Request :=
  example_request "/extract" [("Content-Length", "-2")] movie_json.

(** * Properties *)

(** ** Traces *)

Lemma wire_app (t1 t2 : list event) : wire (t1 ++ t2) = (wire t1 ++ wire t2)%list.
Proof. apply List.filter_app. Qed.

Lemma spawns_app (t1 t2 : list event) : spawns (t1 ++ t2) = (spawns t1 ++ spawns t2)%list.
Proof. apply omap_app. Qed.

Lemma statuses_app (t1 t2 : list event) :
  statuses (t1 ++ t2) = (statuses t1 ++ statuses t2)%list.
Proof. apply omap_app. Qed.

(** ** Text that can be encoded *)

Lemma utf8_valid_app_le (n : nat) :
  forall a b, (String.length a <= n)%nat ->
    utf8_valid a = true -> utf8_valid (a ++ b) = utf8_valid b.
Proof.
  induction n as [|n IH]; intros a b Hlen Ha.
  - destruct a; [reflexivity | cbn in Hlen; lia].
  - destruct a as [|b0 r0]; [reflexivity|].
    change (String b0 r0 ++ b) with (String b0 (r0 ++ b)).
    cbn [utf8_valid] in Ha |- *. cbn [String.length] in Hlen.
    destruct (byte_in 0 127 b0); [apply IH; [lia | assumption]|].
    destruct r0 as [|b1 r1]; [discriminate|].
    change (String b1 r1 ++ b) with (String b1 (r1 ++ b)).
    cbn [String.length] in Hlen.
    destruct (byte_in 194 223 b0).
    { apply andb_true_iff in Ha as [-> Ha]. cbn [andb]. apply IH; [lia | assumption]. }
    destruct r1 as [|b2 r2]; [discriminate|].
    change (String b2 r2 ++ b) with (String b2 (r2 ++ b)).
    cbn [String.length] in Hlen.
    destruct (lead3 b0 b1).
    { apply andb_true_iff in Ha as [-> Ha]. cbn [andb]. apply IH; [lia | assumption]. }
    destruct r2 as [|b3 r3]; [discriminate|].
    change (String b3 r3 ++ b) with (String b3 (r3 ++ b)).
    cbn [String.length] in Hlen.
    apply andb_true_iff in Ha as [Ha Hr].
    rewrite Ha. cbn [andb]. apply IH; [lia | assumption].
Qed.

(** Joining two texts gives a text. *)
Lemma utf8_valid_app a b :
  utf8_valid a = true -> utf8_valid b = true -> utf8_valid (a ++ b) = true.
Proof.
  intros Ha Hb. now rewrite (utf8_valid_app_le (String.length a) a b (le_n _) Ha).
Qed.

(** Closes a goal saying that a concatenation of literals and of strings
    known to be texts is a text. *)
Ltac valid_text :=
  lazymatch goal with
  | |- utf8_valid (String.append _ _) = true => apply utf8_valid_app; valid_text
  | |- utf8_valid _ = true => first [assumption | vm_compute; reflexivity]
  end.

Lemma encode_text `{PyLib} s : utf8_valid s = true -> encode_utf8 s = Return s.
Proof. intros Hs. unfold encode_utf8. now rewrite Hs. Qed.

Lemma type_name_text v : utf8_valid (type_name v) = true.
Proof. destruct v; reflexivity. Qed.

(** ** The shared routine, branch by branch *)

Section SharedRoutine.
Context `{PyLib} (w : World).

#[local] Abbreviation process_request := (RequestHandler.process_request w).

Lemma process_request_falsy t :
  truthy t = false ->
  process_request t = (plain_text 400 REQUIRED, Return tt).
Proof.
  intros Ht. unfold RequestHandler.process_request. now rewrite Ht.
Qed.

Lemma existing_path_named p : fs_exists w p = true -> p <> "".
Proof.
  intros Hfs ->. rewrite (fs_exists_empty w) in Hfs. discriminate.
Qed.

Lemma process_request_absent p :
  p <> "" -> utf8_valid p = true -> fs_exists w p = false ->
  process_request (VStr p) =
    (plain_text 400
       ("Error: The specified path does not exist inside the container: '" ++ p ++ "'"),
     Return tt).
Proof.
  intros Hp Htext Hfs. unfold RequestHandler.process_request.
  cbn [truthy]. rewrite bool_decide_eq_false_2 by done.
  cbn -[encode_utf8]. rewrite Hfs. cbn -[encode_utf8].
  rewrite encode_text by valid_text. reflexivity.
Qed.

(** What the library and the machine promise about a run. *)
Lemma run_outcome_text args :
  match run_process w args with
  | Return cp => utf8_valid (stdout cp) = true /\ utf8_valid (stderr cp) = true
  | Raise e => utf8_valid (exn_str e) = true
  end.
Proof. apply run_process_text. Qed.

Lemma process_request_present p :
  utf8_valid p = true ->
  fs_exists w p = true ->
  process_request (VStr p) =
    (Print ("Executing script for path: " ++ p)
       :: Subprocess [VStr EXTRACT_SCRIPT_PATH; VStr p] RUN_OPTIONS
       :: after_start p (run_process w [VStr EXTRACT_SCRIPT_PATH; VStr p]),
     Return tt).
Proof.
  intros Htext Hfs. pose proof (existing_path_named p Hfs) as Hp.
  pose proof (run_outcome_text [VStr EXTRACT_SCRIPT_PATH; VStr p]) as Hrun.
  unfold RequestHandler.process_request.
  cbn [truthy]. rewrite bool_decide_eq_false_2 by done.
  cbn -[encode_utf8]. rewrite Hfs. cbn -[encode_utf8].
  destruct (run_process w [VStr EXTRACT_SCRIPT_PATH; VStr p]) as [cp|e];
    cbn -[encode_utf8].
  - destruct Hrun as [Hout Herr].
    unfold after_start, stderr_log, report.
    destruct (bool_decide (stderr cp = "")), (Z.eqb (returncode cp) 0);
      cbn -[encode_utf8]; rewrite encode_text by valid_text; reflexivity.
  - rewrite encode_text by valid_text. reflexivity.
Qed.

(** On a text or on [None] the routine ends without an exception. *)
Lemma process_request_str_returns p :
  utf8_valid p = true -> result (process_request (VStr p)) = Return tt.
Proof.
  intros Htext. destruct (decide (p = "")) as [->|Hp].
  - now rewrite process_request_falsy.
  - destruct (fs_exists w p) eqn:Hfs.
    + now rewrite process_request_present.
    + now rewrite process_request_absent.
Qed.
End SharedRoutine.

(** ** The two adapters *)

Section Adapters.
Context `{PyLib} (w : World).

#[local] Abbreviation process_request := (RequestHandler.process_request w).

(** A GET request routed to /extract does what the shared routine does
    on the extracted target, after its log lines. *)
Lemma do_GET_extracts self t :
  extracts w GET self t ->
  exists pre,
    RequestHandler.do_GET w self
      = ((pre ++ trace (process_request t))%list, result (process_request t))
    /\ wire pre = [] /\ quiet pre.
Proof.
  intros Hx. inversion Hx as [self' u t' Hu Hp Hf | ]; subst.
  unfold RequestHandler.do_GET. rewrite Hu.
  cbn. rewrite Hp, bool_decide_eq_true_2 by done. rewrite Hf. cbn.
  destruct (process_request t) as [tr o].
  eexists (request_log "GET" self ++ [_; _; _])%list. split; [reflexivity|].
  repeat split. cbn. tauto.
Qed.

(** So does a POST request, as long as the routine raises nothing. *)
Lemma do_POST_extracts self t :
  extracts w POST self t ->
  result (process_request t) = Return tt ->
  exists pre,
    RequestHandler.do_POST w self = ((pre ++ trace (process_request t))%list, Return tt)
    /\ wire pre = [] /\ quiet pre.
Proof.
  intros Hx Hret.
  inversion Hx as [ | self' u n body s data t' Hu Hp Hn Hb Hs Hd Hg]; subst.
  unfold RequestHandler.do_POST. rewrite Hu.
  cbn -[rfile_read]. rewrite Hp, bool_decide_eq_true_2 by done.
  rewrite Hn. cbn -[rfile_read]. rewrite Hb. cbn. rewrite Hs. cbn.
  rewrite Hd. cbn. rewrite Hg. cbn.
  destruct (process_request t) as [tr o]. cbn in Hret. subst o. cbn.
  eexists (request_log "POST" self ++ [_; _])%list. split; [reflexivity|].
  repeat split. cbn. tauto.
Qed.

Lemma handle_extracts m self t :
  extracts w m self t ->
  result (process_request t) = Return tt ->
  wire (trace (handle w m self)) = wire (trace (process_request t))
  /\ spawns (trace (handle w m self)) = spawns (trace (process_request t)).
Proof.
  intros Hx Hret. destruct m; cbn [handle].
  - destruct (do_GET_extracts _ _ Hx) as (pre & -> & Hw & Hs & _).
    cbn [trace fst]. now rewrite wire_app, spawns_app, Hw, Hs.
  - destruct (do_POST_extracts _ _ Hx Hret) as (pre & -> & Hw & Hs & _).
    cbn [trace fst]. now rewrite wire_app, spawns_app, Hw, Hs.
Qed.

(** What a query string can yield: nothing, or a text. *)
Lemma get_target_shape self t :
  extracts w GET self t ->
  t = VNone \/ exists p, t = VStr p /\ utf8_valid p = true.
Proof.
  inversion 1 as [self' u t' _ _ Hfirst | ]; subst.
  destruct (parse_qs (urllib.query u) !! "path") as [[|p rest]|] eqn:Hq;
    cbn in Hfirst; [discriminate| |]; injection Hfirst as <-; [right|now left].
  exists p. split; [reflexivity|].
  pose proof (parse_qs_text _ _ _ Hq) as Hall. now inversion Hall.
Qed.

Lemma get_target_returns self t :
  extracts w GET self t -> result (process_request t) = Return tt.
Proof.
  intros [-> | (p & -> & Htext)]%get_target_shape.
  - now rewrite process_request_falsy.
  - now apply process_request_str_returns.
Qed.

(** A target that counts as false gets the first 400 of the shared
    routine, by either method. *)
Lemma falsy_target_is_400 m self t :
  extracts w m self t ->
  truthy t = false ->
  wire (trace (handle w m self)) = plain_text 400 REQUIRED
  /\ spawns (trace (handle w m self)) = [].
Proof.
  intros Hx Hfalsy.
  pose proof (process_request_falsy w t Hfalsy) as Hpr.
  destruct (handle_extracts m self t Hx) as [-> ->].
  - now rewrite Hpr.
  - now rewrite Hpr.
Qed.
End Adapters.

(** ** Responses of the /extract route *)

Section Extract.
Context `{PyLib} (w : World).



(** C3. A request routed to /extract whose extracted target path is
    missing or the empty string is answered with status 400 and the
    message that the path parameter is required; no process is
    started. *)
Theorem missing_path_is_400 m self t :
  extracts w m self t ->
  t = VNone \/ t = VStr "" ->
  wire (trace (handle w m self)) = plain_text 400 REQUIRED
  /\ spawns (trace (handle w m self)) = [].
Proof.
  intros Hx Ht. apply (falsy_target_is_400 w m self t Hx).
  destruct Ht; subst; reflexivity.
Qed.

End Extract.





Lemma missing_path_is_400_witness :
  wire (trace (@handle example_lib working_world POST post_empty_object))
    = plain_text 400 REQUIRED
  /\ spawns (trace (@handle example_lib working_world POST post_empty_object)) = [].
Proof.
  apply (@missing_path_is_400 example_lib working_world POST post_empty_object VNone).
  - eapply (@extracts_POST example_lib); reflexivity.
  - left. reflexivity.
Defined.



(** ** Routing and the two ways a target arrives *)

Section Routing.
Context `{PyLib} (w : World).

(** C7. A GET or POST request whose URL path is not /extract is answered
    with status 404 and a plain-text body pointing to /extract; no
    process is started. *)
Theorem other_route_is_404 m self u :
  urlparse (path self) = Return u ->
  urllib.path u <> "/extract" ->
  wire (trace (handle w m self)) = plain_text 404 (NOT_FOUND m)
  /\ spawns (trace (handle w m self)) = [].
Proof.
  intros Hu Hroute.
  destruct m; cbn [handle];
    unfold RequestHandler.do_GET, RequestHandler.do_POST;
    rewrite Hu; cbn; rewrite bool_decide_eq_false_2 by done;
    split; reflexivity.
Qed.

(** A GET request whose query names a path hands the first value of
    that name, a text, to the shared routine. *)
Lemma get_query_extracts self u p rest :
  urlparse (path self) = Return u ->
  urllib.path u = "/extract" ->
  parse_qs (urllib.query u) !! "path" = Some (p :: rest) ->
  extracts w GET self (VStr p) /\ utf8_valid p = true.
Proof.
  intros Hu Hroute Hq. split.
  - apply (extracts_GET w self u _ Hu Hroute). now rewrite Hq.
  - pose proof (parse_qs_text _ _ _ Hq) as Hall. now inversion Hall.
Qed.

(** C6. A GET request to /extract whose path query parameter names
    something that exists starts the script exactly once, with the
    fixed executable and that path as its only argument, asking for
    the output to be captured; nothing is sent to the client before
    the call, and what follows it (the log of the captured output and
    the response) is determined by what the call returned. *)
Theorem get_runs_script_once self u p rest :
  urlparse (path self) = Return u ->
  urllib.path u = "/extract" ->
  parse_qs (urllib.query u) !! "path" = Some (p :: rest) ->
  fs_exists w p = true ->
  let args := [VStr EXTRACT_SCRIPT_PATH; VStr p] in
  spawns (trace (RequestHandler.do_GET w self))
    = [(args, {| capture_output := true; text := true; check := false |})]
  /\ exists pre,
       trace (RequestHandler.do_GET w self)
         = (pre ++ Subprocess args RUN_OPTIONS :: after_start p (run_process w args))%list
       /\ wire pre = [] /\ spawns pre = [].
Proof.
  intros Hu Hroute Hq Hfs args.
  destruct (get_query_extracts self u p rest Hu Hroute Hq) as [Hx Htext].
  destruct (do_GET_extracts w self _ Hx) as (pre & Hget & Hw & Hs & _).
  rewrite Hget, (process_request_present w p Htext Hfs). cbn [trace fst]. fold args.
  assert (Hafter : spawns (after_start p (run_process w args)) = []).
  { destruct (run_process w args) as [cp|e]; [|reflexivity].
    cbn [after_start]. unfold stderr_log, report.
    case_bool_decide; destruct (Z.eqb (returncode cp) 0); reflexivity. }
  split.
  - rewrite spawns_app, Hs.
    change (Print ?l :: Subprocess ?a ?o :: ?t)%list
      with ([Print l; Subprocess a o] ++ t)%list.
    rewrite spawns_app, Hafter. reflexivity.
  - exists (pre ++ [Print ("Executing script for path: " ++ p)])%list.
    rewrite <- app_assoc. split; [reflexivity|].
    rewrite wire_app, spawns_app, Hw, Hs. split; reflexivity.
Qed.

(** C5, as the code has it.  A POST request to /extract whose body, the
    Content-Length bytes read, is UTF-8 text on which [json.loads]
    raises [JSONDecodeError] is answered with status 400 and a
    plain-text body saying the JSON is invalid; no process is
    started. *)
Theorem invalid_json_is_400 self u n body s e :
  urlparse (path self) = Return u ->
  urllib.path u = "/extract" ->
  py_int (headers_getitem (headers self) "Content-Length") = Return n ->
  rfile_read w (rfile self) n = Return body ->
  decode_utf8 body = Return s ->
  json_loads s = Raise e ->
  exn_type e = JSONDecodeError ->
  wire (trace (RequestHandler.do_POST w self)) = plain_text 400 INVALID_JSON
  /\ spawns (trace (RequestHandler.do_POST w self)) = [].
Proof.
  intros Hu Hroute Hn Hb Hs Hjson Hclass.
  unfold RequestHandler.do_POST. rewrite Hu.
  cbn -[rfile_read]. rewrite Hroute, bool_decide_eq_true_2 by done.
  rewrite Hn. cbn -[rfile_read]. rewrite Hb. cbn. rewrite Hs. cbn.
  rewrite Hjson. cbn. rewrite Hclass.
  split; reflexivity.
Qed.

(** The catch-all clause of [do_POST] on an exception raised before the
    body was decoded, whose text can be encoded. *)
Lemma post_refused_early self u e :
  urlparse (path self) = Return u ->
  urllib.path u = "/extract" ->
  (py_int (headers_getitem (headers self) "Content-Length") = Raise e
   \/ exists n,
        py_int (headers_getitem (headers self) "Content-Length") = Return n
        /\ (rfile_read w (rfile self) n = Raise e
            \/ exists body,
                 rfile_read w (rfile self) n = Return body
                 /\ decode_utf8 body = Raise e)) ->
  exn_type e <> JSONDecodeError ->
  utf8_valid (exn_str e) = true ->
  RequestHandler.do_POST w self =
    ((request_log "POST" self
        ++ plain_text 500
             ("An unexpected server error occurred while processing POST request: "
                ++ exn_str e))%list,
     Return tt).
Proof.
  intros Hu Hroute Hstage Hclass Htext.
  assert (Henc : encode_utf8
            ("An unexpected server error occurred while processing POST request: "
               ++ exn_str e)
          = Return ("An unexpected server error occurred while processing POST request: "
                      ++ exn_str e))
    by (apply encode_text; valid_text).
  unfold RequestHandler.do_POST. rewrite Hu.
  cbn -[rfile_read encode_utf8]. rewrite Hroute, bool_decide_eq_true_2 by done.
  destruct Hstage as [Hn | (n & Hn & [Hb | (body & Hb & Hs)])]; rewrite Hn;
    cbn -[rfile_read encode_utf8]; rewrite ?Hb; cbn -[rfile_read encode_utf8];
    rewrite ?Hs; cbn -[rfile_read encode_utf8];
    (destruct (exn_type e) eqn:Hty; [now destruct Hclass | ..]);
    rewrite Henc; reflexivity.
Qed.

(** [rfile.read] raises nothing that looks like a JSON error, and what
    it raises has a plain text. *)
Lemma rfile_read_raises stream n e :
  rfile_read w stream n = Raise e ->
  exn_type e <> JSONDecodeError /\ utf8_valid (exn_str e) = true.
Proof.
  unfold rfile_read.
  destruct (_ || _); [intros [= <-]; split; [discriminate | reflexivity]|].
  destruct (Z.ltb n (-1)); [intros [= <-]; split; [discriminate | reflexivity]|].
  destruct (Z.eqb n (-1)); [discriminate|].
  destruct (read_fault_at w n) as [[]|]; [| |discriminate];
    intros [= <-]; split; (discriminate || reflexivity).
Qed.

(** C10. A POST request to /extract without a Content-Length header, or
    whose body is not UTF-8, is answered with status 500 and the text
    of the unexpected error, by the catch-all clause and not by the
    one for invalid JSON; no process is started. *)
Theorem unreadable_post_is_500 self u :
  urlparse (path self) = Return u ->
  urllib.path u = "/extract" ->
  headers_getitem (headers self) "Content-Length" = VNone
  \/ (exists n,
        py_int (headers_getitem (headers self) "Content-Length") = Return n
        /\ forall body,
             rfile_read w (rfile self) n = Return body -> utf8_valid body = false) ->
  exists e,
    exn_type e <> JSONDecodeError
    /\ wire (trace (RequestHandler.do_POST w self)) =
         plain_text 500
           ("An unexpected server error occurred while processing POST request: "
              ++ exn_str e)
    /\ statuses (trace (RequestHandler.do_POST w self)) = [500]
    /\ spawns (trace (RequestHandler.do_POST w self)) = [].
Proof.
  intros Hu Hroute Hcase.
  assert (Hraised : exists e,
             exn_type e <> JSONDecodeError /\ utf8_valid (exn_str e) = true
             /\ (py_int (headers_getitem (headers self) "Content-Length") = Raise e
                 \/ exists n,
                      py_int (headers_getitem (headers self) "Content-Length") = Return n
                      /\ (rfile_read w (rfile self) n = Raise e
                          \/ exists body,
                               rfile_read w (rfile self) n = Return body
                               /\ decode_utf8 body = Raise e))).
  { destruct Hcase as [Hnone | (n & Hn & Hbad)].
    - eexists (Exn TypeError _). rewrite Hnone. cbn [py_int type_name].
      split; [discriminate|]. split; [|left; reflexivity]. reflexivity.
    - destruct (rfile_read w (rfile self) n) as [body|e] eqn:Hb.
      + exists (Exn UnicodeDecodeError (utf8_error_text body)).
        split; [discriminate|]. split; [apply utf8_error_text_valid|].
        right. exists n. split; [assumption|]. right. exists body.
        split; [exact Hb|]. unfold decode_utf8. now rewrite (Hbad body eq_refl).
      + destruct (rfile_read_raises _ _ _ Hb) as [Hclass Htext].
        exists e. split; [assumption|]. split; [assumption|].
        right. exists n. split; [assumption|]. now left. }
  destruct Hraised as (e & Hclass & Htext & Hstage).
  exists e. split; [assumption|].
  rewrite (post_refused_early self u e Hu Hroute Hstage Hclass Htext).
  cbn [trace fst]. rewrite wire_app, statuses_app, spawns_app.
  repeat split; reflexivity.
Qed.
End Routing.

(** ** GET and POST side by side *)

Section Methods.
Context `{PyLib} (w : World).

(** C8, as the code has it.  A POST request to /extract whose body is a
    JSON object without a path field is answered exactly as a GET
    request to /extract without a path parameter: both reach the
    shared routine with a missing target and get 400.  And whenever a
    GET and a POST request yield the same target, they get the same
    response and start the same processes. *)
Theorem post_answers_as_get :
  (forall selfP selfG uP uG n body s d,
      urlparse (path selfP) = Return uP -> urllib.path uP = "/extract" ->
      py_int (headers_getitem (headers selfP) "Content-Length") = Return n ->
      rfile_read w (rfile selfP) n = Return body ->
      decode_utf8 body = Return s ->
      json_loads s = Return (VDict d) ->
      d !! "path" = None ->
      urlparse (path selfG) = Return uG -> urllib.path uG = "/extract" ->
      parse_qs (urllib.query uG) !! "path" = None ->
      wire (trace (RequestHandler.do_POST w selfP)) = plain_text 400 REQUIRED
      /\ wire (trace (RequestHandler.do_GET w selfG)) = plain_text 400 REQUIRED)
  /\ (forall selfG selfP t,
        extracts w GET selfG t -> extracts w POST selfP t ->
        wire (trace (RequestHandler.do_GET w selfG))
          = wire (trace (RequestHandler.do_POST w selfP))
        /\ spawns (trace (RequestHandler.do_GET w selfG))
             = spawns (trace (RequestHandler.do_POST w selfP))).
Proof.
  split.
  - intros selfP selfG uP uG n body s d HuP HrP Hn Hb Hs Hjson Hd HuG HrG Hq.
    assert (HxP : extracts w POST selfP VNone).
    { eapply extracts_POST; eauto. cbn. now rewrite Hd. }
    assert (HxG : extracts w GET selfG VNone).
    { eapply extracts_GET; eauto. now rewrite Hq. }
    split.
    + now apply (falsy_target_is_400 w POST selfP VNone HxP).
    + now apply (falsy_target_is_400 w GET selfG VNone HxG).
  - intros selfG selfP t HxG HxP.
    pose proof (get_target_returns w selfG t HxG) as Hret.
    destruct (handle_extracts w GET selfG t HxG Hret) as [HwG HsG].
    destruct (handle_extracts w POST selfP t HxP Hret) as [HwP HsP].
    cbn [handle] in *. now rewrite HwG, HwP, HsG, HsP.
Qed.
End Methods.

(** ** Start-up *)

(** C9, as the code has it.  The listener is created on port 8080 when
    the environment variable is not set and on the integer the variable
    denotes when [int] accepts its value; when [int] rejects the value,
    start-up ends with that exception before any listener is created. *)
Theorem listening_port `{PyLib} (w : World) :
  match environ w !! "LISTEN_PORT" with
  | None => server_port (trace (run_server w)) = Some 8080
  | Some s =>
    match int_of_str s with
    | Return n => server_port (trace (run_server w)) = Some n
    | Raise e => run_server w = ([], Raise e)
    end
  end.
Proof.
  unfold run_server.
  destruct (environ w !! "LISTEN_PORT") as [s|]; cbn.
  - destruct (int_of_str s) as [n|e]; [|reflexivity].
    cbn. now destruct (bind_error w ("", n)).
  - now destruct (bind_error w ("", 8080)).
Qed.

(** ** The examples, worked *)

Lemma other_route_is_404_witness :
  wire (trace (@handle example_lib working_world GET get_other))
    = plain_text 404 "Not Found. Please use the /extract endpoint."
  /\ spawns (trace (@handle example_lib working_world GET get_other)) = [].
Proof.
  apply (@other_route_is_404 example_lib working_world GET get_other
           {| urllib.path := "/other"; urllib.query := "" |}).
  - reflexivity.
  - discriminate.
Defined.

Lemma get_runs_script_once_witness :
  let args := [VStr EXTRACT_SCRIPT_PATH; VStr "/data/movie.mkv"] in
  spawns (trace (@RequestHandler.do_GET example_lib working_world get_movie))
    = [(args, {| capture_output := true; text := true; check := false |})]
  /\ exists pre,
       trace (@RequestHandler.do_GET example_lib working_world get_movie)
         = (pre ++ Subprocess args RUN_OPTIONS
                :: after_start "/data/movie.mkv" (run_process working_world args))%list
       /\ wire pre = [] /\ spawns pre = [].
Proof.
  apply (@get_runs_script_once example_lib working_world get_movie
           {| urllib.path := "/extract"; urllib.query := "path=/data/movie.mkv" |}
           "/data/movie.mkv" []); reflexivity.
Defined.

Lemma invalid_json_is_400_witness :
  wire (trace (@RequestHandler.do_POST example_lib working_world post_not_json))
    = plain_text 400 "Error: Invalid JSON in request body."
  /\ spawns (trace (@RequestHandler.do_POST example_lib working_world post_not_json)) = [].
Proof.
  apply (@invalid_json_is_400 example_lib working_world post_not_json
           {| urllib.path := "/extract"; urllib.query := "" |} 8 "not json" "not json"
           (Exn JSONDecodeError "Expecting value: line 1 column 1 (char 0)"));
    reflexivity.
Defined.

(** C5 as stated fails, in two ways.  The one byte 0xFF is no JSON
    text: decoding it raises and the request is answered 500, not 400.
    The text NaN is UTF-8 and is no JSON either (no JSON value opens
    with N), but [json.loads] accepts it and returns a float: the
    request goes on and is answered 500, not 400. *)
Lemma non_json_bodies_are_500 :
  (@urlparse example_lib (path post_byte_ff)
     = Return {| urllib.path := "/extract"; urllib.query := "" |}
   /\ @py_int example_lib (headers_getitem (headers post_byte_ff) "Content-Length") = Return 1
   /\ rfile_read working_world (rfile post_byte_ff) 1 = Return (String "255"%char "")
   /\ utf8_valid (String "255"%char "") = false
   /\ statuses (trace (@RequestHandler.do_POST example_lib working_world post_byte_ff)) = [500]
   /\ wire (trace (@RequestHandler.do_POST example_lib working_world post_byte_ff))
        <> plain_text 400 INVALID_JSON)
  /\ (@py_int example_lib (headers_getitem (headers post_nan) "Content-Length") = Return 3
      /\ rfile_read working_world (rfile post_nan) 3 = Return "NaN"
      /\ @decode_utf8 example_lib "NaN" = Return "NaN"
      /\ opens_json_value "NaN" = false
      /\ @json_loads example_lib "NaN" = Return (VFloat NAN_BITS)
      /\ wire (trace (@RequestHandler.do_POST example_lib working_world post_nan))
           = plain_text 500
               "An unexpected server error occurred while processing POST request: 'float' object has no attribute 'get'").
Proof. repeat split; try reflexivity. discriminate. Qed.

Lemma unreadable_post_is_500_witness :
  exists e,
    exn_type e <> JSONDecodeError
    /\ wire (trace (@RequestHandler.do_POST example_lib working_world post_no_length)) =
         plain_text 500
           ("An unexpected server error occurred while processing POST request: "
              ++ exn_str e)
    /\ statuses (trace (@RequestHandler.do_POST example_lib working_world post_no_length)) = [500]
    /\ spawns (trace (@RequestHandler.do_POST example_lib working_world post_no_length)) = [].
Proof.
  apply (@unreadable_post_is_500 example_lib working_world post_no_length
           {| urllib.path := "/extract"; urllib.query := "" |}).
  - reflexivity.
  - reflexivity.
  - left. reflexivity.
Defined.

Lemma post_answers_as_get_witness :
  wire (trace (@RequestHandler.do_POST example_lib working_world post_empty_object))
    = plain_text 400 REQUIRED
  /\ wire (trace (@RequestHandler.do_GET example_lib working_world get_bare))
       = plain_text 400 REQUIRED.
Proof.
  apply (proj1 (@post_answers_as_get example_lib working_world)
           post_empty_object get_bare
           {| urllib.path := "/extract"; urllib.query := "" |}
           {| urllib.path := "/extract"; urllib.query := "" |}
           2 "{}" "{}" ∅); reflexivity.
Defined.

(** C8 as stated fails: the text [[]] is valid JSON and has no path
    field, yet the POST request carrying it is answered 500 while the
    GET request without a path parameter is answered 400. *)
Lemma post_json_array_is_500 :
  @json_loads example_lib "[]" = Return (VList [])
  /\ wire (trace (@RequestHandler.do_POST example_lib working_world post_array))
       = plain_text 500
           "An unexpected server error occurred while processing POST request: 'list' object has no attribute 'get'"
  /\ wire (trace (@RequestHandler.do_GET example_lib working_world get_bare))
       = plain_text 400 REQUIRED.
Proof. repeat split; reflexivity. Qed.

(** C9 as stated fails: with the variable set to [abc] no listener is
    created, on port 8080 or any other. *)
Lemma unparsable_port_stops_server :
  environ unparsable_port_world !! "LISTEN_PORT" = Some "abc"
  /\ @run_server example_lib unparsable_port_world
       = ([], Raise (Exn ValueError "invalid literal for int() with base 10: 'abc'"))
  /\ server_port (trace (@run_server example_lib unparsable_port_world)) <> Some 8080.
Proof. repeat split; try reflexivity. discriminate. Qed.

(** * Further properties of the handler *)

(** Whatever the call returned, what follows it on an encodable path is
    one complete response, 200 or 500, and starts nothing. *)
Lemma after_start_answers p r :
  (exists code body,
      wire (after_start p r) = plain_text code body /\ (code = 200 \/ code = 500))
  /\ spawns (after_start p r) = [].
Proof.
  destruct r as [cp|e]; cbn [after_start].
  - unfold stderr_log, report.
    case_bool_decide; destruct (Z.eqb (returncode cp) 0); (split; [|reflexivity]);
      do 2 eexists; (split; [reflexivity|]); auto.
  - split; [|reflexivity]. do 2 eexists. split; [reflexivity|]. auto.
Qed.

(** Splits on every test of encodability and emptiness left in the goal. *)
Ltac split_tests :=
  repeat (cbn;
          match goal with
          | |- context [if utf8_valid ?s then _ else _] => destruct (utf8_valid s)
          | |- context [bool_decide ?P] => destruct (bool_decide P)
          end).

Section Routine.
Context `{PyLib} (w : World).

#[local] Abbreviation process_request := (RequestHandler.process_request w).

(** The routine starts the script once on its argument when the
    argument counts as true and [os.path.exists] said yes, and nothing
    otherwise. *)
Lemma process_request_spawns t :
  spawns (trace (process_request t)) =
    if truthy t then
      match os_path_exists w t with
      | Return true => [([VStr EXTRACT_SCRIPT_PATH; t], RUN_OPTIONS)]
      | _ => []
      end
    else [].
Proof.
  unfold RequestHandler.process_request, encode_utf8.
  destruct (truthy t) eqn:Ht; [|reflexivity].
  destruct (os_path_exists w t) as [[|]|e] eqn:Hex; cbn.
  - destruct (run_process w [VStr EXTRACT_SCRIPT_PATH; t]) as [cp|e]; cbn.
    + destruct (Z.eqb (returncode cp) 0); split_tests; reflexivity.
    + split_tests; reflexivity.
  - split_tests; reflexivity.
  - reflexivity.
Qed.

(** The routine sends status 200 only after the script, run on its
    argument, ended with exit code 0. *)
Lemma process_request_200 t :
  In 200 (statuses (trace (process_request t))) ->
  truthy t = true /\ os_path_exists w t = Return true
  /\ exists cp,
       run_process w [VStr EXTRACT_SCRIPT_PATH; t] = Return cp /\ returncode cp = 0.
Proof.
  unfold RequestHandler.process_request, encode_utf8.
  destruct (truthy t) eqn:Ht; cbn; [|intros Hin; intuition congruence].
  destruct (os_path_exists w t) as [[|]|e] eqn:Hex; cbn.
  - destruct (run_process w [VStr EXTRACT_SCRIPT_PATH; t]) as [cp|e]; cbn.
    + destruct (Z.eqb_spec (returncode cp) 0) as [Hzero|Hnz].
      * intros _. repeat (split; [reflexivity|]). now exists cp.
      * split_tests; intros Hin; cbn in Hin; intuition congruence.
    + split_tests; intros Hin; cbn in Hin; intuition congruence.
  - split_tests; intros Hin; cbn in Hin; intuition congruence.
  - intros [].
Qed.

(** The routine on an existing path when the script cannot be started. *)
Lemma process_request_start_failure p e :
  fs_exists w p = true ->
  run_process w [VStr EXTRACT_SCRIPT_PATH; VStr p] = Raise e ->
  process_request (VStr p) =
    (Print ("Executing script for path: " ++ p)
       :: Subprocess [VStr EXTRACT_SCRIPT_PATH; VStr p] RUN_OPTIONS
       :: plain_text 500 ("An unexpected server error occurred: " ++ exn_str e),
     Return tt).
Proof.
  intros Hfs Hrun. pose proof (existing_path_named w p Hfs) as Hp.
  pose proof (run_outcome_text w [VStr EXTRACT_SCRIPT_PATH; VStr p]) as Htext.
  rewrite Hrun in Htext.
  unfold RequestHandler.process_request.
  cbn [truthy]. rewrite bool_decide_eq_false_2 by done.
  cbn -[encode_utf8]. rewrite Hfs. cbn -[encode_utf8]. rewrite Hrun.
  cbn -[encode_utf8]. rewrite encode_text by valid_text. reflexivity.
Qed.
End Routine.

(** ** What a request can set off *)

(** Closes a goal saying that a given list of events is quiet. *)
Ltac quiet_done := split; [reflexivity | cbn; intuition congruence].

Section Decomposition.
Context `{PyLib} (w : World).

#[local] Abbreviation process_request := (RequestHandler.process_request w).

(** Either the handler stays quiet, or it hands the target the request
    yields to the shared routine, quiet before and after it. *)
Lemma handle_decompose m self :
  quiet (trace (handle w m self))
  \/ exists t pre post,
       extracts w m self t
       /\ trace (handle w m self) = (pre ++ trace (process_request t) ++ post)%list
       /\ quiet pre /\ quiet post.
Proof.
  destruct (urlparse (path self)) as [u|e] eqn:Hu.
  2: { left. destruct m; cbn [handle];
         unfold RequestHandler.do_GET, RequestHandler.do_POST; rewrite Hu; quiet_done. }
  destruct m; cbn [handle].
  - destruct (decide (urllib.path u = "/extract")) as [Hroute|Hroute].
    2: { left. unfold RequestHandler.do_GET. rewrite Hu. cbn.
         rewrite bool_decide_eq_false_2 by done. quiet_done. }
    destruct (first_item (default [VNone]
                (List.map VStr <$> parse_qs (urllib.query u) !! "path")))
      as [t|e] eqn:Hfirst.
    + right. exists t.
      destruct (do_GET_extracts w self t (extracts_GET w self u t Hu Hroute Hfirst))
        as (pre & -> & _ & Hquiet).
      exists pre, []. rewrite app_nil_r.
      split; [exact (extracts_GET w self u t Hu Hroute Hfirst)|].
      split; [reflexivity|]. split; [assumption | quiet_done].
    + left. unfold RequestHandler.do_GET. rewrite Hu. cbn.
      rewrite bool_decide_eq_true_2 by done. rewrite Hfirst. quiet_done.
  - destruct (decide (urllib.path u = "/extract")) as [Hroute|Hroute].
    2: { left. unfold RequestHandler.do_POST. rewrite Hu. cbn.
         rewrite bool_decide_eq_false_2 by done. quiet_done. }
    assert (Hlog : quiet (request_log "POST" self)) by quiet_done.
    unfold RequestHandler.do_POST. rewrite Hu.
    cbn -[rfile_read try_except encode_utf8].
    rewrite bool_decide_eq_true_2 by done.
    destruct (py_int (headers_getitem (headers self) "Content-Length")) as [n|e] eqn:Hn.
    2: { left. unfold try_except, encode_utf8.
         destruct (exn_type e); split_tests; quiet_done. }
    cbn -[rfile_read try_except encode_utf8].
    destruct (rfile_read w (rfile self) n) as [body|e] eqn:Hb.
    2: { left. unfold try_except, encode_utf8.
         destruct (exn_type e); split_tests; quiet_done. }
    cbn -[try_except encode_utf8].
    destruct (decode_utf8 body) as [s|e] eqn:Hs.
    2: { left. unfold try_except, encode_utf8.
         destruct (exn_type e); split_tests; quiet_done. }
    cbn -[try_except encode_utf8].
    destruct (json_loads s) as [data|e] eqn:Hd.
    2: { left. unfold try_except, encode_utf8.
         destruct (exn_type e); split_tests; quiet_done. }
    cbn -[try_except encode_utf8].
    destruct (py_get data "path") as [t|e] eqn:Hg.
    2: { left. unfold try_except, encode_utf8.
         destruct (exn_type e); split_tests; quiet_done. }
    cbn -[try_except encode_utf8].
    right. exists t.
    exists (request_log "POST" self
              ++ [Print ("Request Body: " ++ s); Print "--------------------------"])%list.
    destruct (process_request t) as [tr [[]|e]].
    + exists []. cbn. rewrite app_nil_r.
      split; [exact (extracts_POST w self u n body s data t Hu Hroute Hn Hb Hs Hd Hg)|].
      split; [reflexivity|]. split; quiet_done.
    + unfold try_except, encode_utf8.
      destruct (exn_type e); split_tests;
        (eexists; split;
         [exact (extracts_POST w self u n body s data t Hu Hroute Hn Hb Hs Hd Hg)|];
         split; [cbn; rewrite <- ?app_assoc; cbn; reflexivity|];
         split; quiet_done).
Qed.
End Decomposition.

(** ** Failures around the invocation *)

Section Failures.
Context `{PyLib} (w : World).

(** X1. When the target exists but [subprocess.run] itself raises (the
    script cannot be started), the request is answered 500 with the
    text of that exception, after exactly one attempt to start it. *)
Theorem start_failure_is_500 m self p e :
  extracts w m self (VStr p) ->
  fs_exists w p = true ->
  run_process w [VStr EXTRACT_SCRIPT_PATH; VStr p] = Raise e ->
  wire (trace (handle w m self)) =
    plain_text 500 ("An unexpected server error occurred: " ++ exn_str e)
  /\ spawns (trace (handle w m self))
       = [([VStr EXTRACT_SCRIPT_PATH; VStr p], RUN_OPTIONS)].
Proof.
  intros Hx Hfs Hrun.
  pose proof (process_request_start_failure w p e Hfs Hrun) as Hpr.
  destruct (handle_extracts w m self _ Hx) as [-> ->].
  - now rewrite Hpr.
  - rewrite Hpr. split; reflexivity.
Qed.

(** X2. Once the script has run on an existing path, the log holds the
    notice naming the path, written before the call, then the whole
    standard output, then the whole standard error unless it is empty,
    whatever the exit code. *)
Theorem script_output_is_logged p cp :
  fs_exists w p = true ->
  run_process w [VStr EXTRACT_SCRIPT_PATH; VStr p] = Return cp ->
  (exists rest,
      trace (RequestHandler.process_request w (VStr p))
        = Print ("Executing script for path: " ++ p)
            :: Subprocess [VStr EXTRACT_SCRIPT_PATH; VStr p] RUN_OPTIONS :: rest)
  /\ logged (trace (RequestHandler.process_request w (VStr p)))
       = ("Executing script for path: " ++ p)
           :: ("Script stdout:" ++ LF ++ stdout cp)
           :: (if bool_decide (stderr cp = "") then []
               else ["Script stderr:" ++ LF ++ stderr cp]).
Proof.
  intros Hfs Hrun. pose proof (existing_path_named w p Hfs) as Hp.
  unfold RequestHandler.process_request, encode_utf8.
  cbn [truthy]. rewrite bool_decide_eq_false_2 by done.
  cbn. rewrite Hfs. cbn. rewrite Hrun. cbn.
  destruct (Z.eqb (returncode cp) 0); split_tests; split; eauto.
Qed.

(** X3. Whatever exception other than [JSONDecodeError] stops a POST
    request to /extract while its body is read and parsed (a
    Content-Length that is no integer or that [rfile.read] refuses,
    bytes that are not UTF-8, a JSON value without a [get] method), the
    answer is 500 with the text of that exception, provided that text
    can be encoded, and no process is started. *)
Theorem post_reading_failure_is_500 self u e :
  urlparse (path self) = Return u ->
  urllib.path u = "/extract" ->
  post_target w self = Raise e ->
  exn_type e <> JSONDecodeError ->
  utf8_valid (exn_str e) = true ->
  wire (trace (RequestHandler.do_POST w self)) =
    plain_text 500
      ("An unexpected server error occurred while processing POST request: "
         ++ exn_str e)
  /\ spawns (trace (RequestHandler.do_POST w self)) = [].
Proof.
  intros Hu Hroute Htarget Hclass Htext.
  assert (Henc : encode_utf8
            ("An unexpected server error occurred while processing POST request: "
               ++ exn_str e)
          = Return ("An unexpected server error occurred while processing POST request: "
                      ++ exn_str e))
    by (apply encode_text; valid_text).
  unfold post_target in Htarget.
  unfold RequestHandler.do_POST. rewrite Hu.
  cbn -[rfile_read encode_utf8]. rewrite Hroute, bool_decide_eq_true_2 by done.
  destruct (py_int _) as [n|e1]; cbn -[rfile_read encode_utf8].
  2: { injection Htarget as ->.
       destruct (exn_type e) eqn:Hty; [now destruct Hclass | ..];
         rewrite Henc; split; reflexivity. }
  destruct (rfile_read w (rfile self) n) as [body|e1]; cbn -[encode_utf8].
  2: { injection Htarget as ->.
       destruct (exn_type e) eqn:Hty; [now destruct Hclass | ..];
         rewrite Henc; split; reflexivity. }
  destruct (decode_utf8 body) as [s|e2]; cbn -[encode_utf8].
  2: { injection Htarget as ->.
       destruct (exn_type e) eqn:Hty; [now destruct Hclass | ..];
         rewrite Henc; split; reflexivity. }
  destruct (json_loads s) as [data|e3]; cbn -[encode_utf8].
  2: { injection Htarget as ->.
       destruct (exn_type e) eqn:Hty; [now destruct Hclass | ..];
         rewrite Henc; split; reflexivity. }
  rewrite Htarget. cbn -[encode_utf8].
  destruct (exn_type e) eqn:Hty; [now destruct Hclass | ..];
    rewrite Henc; split; reflexivity.
Qed.

(** X4. A POST request to /extract whose body is valid JSON but not an
    object (a list, a string, a number, true, false, null) is answered
    500 with the text saying that type has no [get]; no process is
    started. *)
Theorem json_without_get_is_500 self u n body s data :
  urlparse (path self) = Return u ->
  urllib.path u = "/extract" ->
  py_int (headers_getitem (headers self) "Content-Length") = Return n ->
  rfile_read w (rfile self) n = Return body ->
  decode_utf8 body = Return s ->
  json_loads s = Return data ->
  (forall d, data <> VDict d) ->
  wire (trace (RequestHandler.do_POST w self)) =
    plain_text 500
      ("An unexpected server error occurred while processing POST request: '"
         ++ type_name data ++ "' object has no attribute 'get'")
  /\ spawns (trace (RequestHandler.do_POST w self)) = [].
Proof.
  intros Hu Hroute Hn Hb Hs Hjson Hshape.
  unfold RequestHandler.do_POST. rewrite Hu.
  cbn -[rfile_read]. rewrite Hroute, bool_decide_eq_true_2 by done.
  rewrite Hn. cbn -[rfile_read]. rewrite Hb. cbn. rewrite Hs. cbn. rewrite Hjson.
  destruct data; try (split; reflexivity).
  now destruct (Hshape d).
Qed.
End Failures.

(** ** Every GET request gets one answer *)

Section Answers.
Context `{PyLib} (w : World).

(** On a text the routine sends one complete response. *)
Lemma routine_answers_text p :
  utf8_valid p = true ->
  exists code body,
    wire (trace (RequestHandler.process_request w (VStr p))) = plain_text code body
    /\ (code = 200 \/ code = 400 \/ code = 404 \/ code = 500).
Proof.
  intros Htext. destruct (decide (p = "")) as [->|Hp].
  - rewrite process_request_falsy by reflexivity. do 2 eexists. split; [reflexivity|]. tauto.
  - destruct (fs_exists w p) eqn:Hfs.
    + rewrite (process_request_present w p Htext Hfs). cbn [trace fst].
      destruct (after_start_answers p (run_process w [VStr EXTRACT_SCRIPT_PATH; VStr p]))
        as [(code & body & Hwire & Hcode) _].
      exists code, body.
      change (Print ?l :: Subprocess ?a ?o :: ?r)%list
        with ([Print l; Subprocess a o] ++ r)%list.
      rewrite wire_app, Hwire. split; [reflexivity | tauto].
    + rewrite (process_request_absent w p Hp Htext Hfs).
      do 2 eexists. split; [reflexivity|]. tauto.
Qed.

(** X6. Once the request target parses, and given that the query
    dictionary holds no empty list (as [parse_qs] never builds one),
    [do_GET] raises nothing and sends exactly one complete plain-text
    response, with status 200, 400, 404 or 500. *)
Theorem get_always_answers self u :
  urlparse (path self) = Return u ->
  parse_qs (urllib.query u) !! "path" <> Some [] ->
  result (RequestHandler.do_GET w self) = Return tt
  /\ exists code body,
       wire (trace (RequestHandler.do_GET w self)) = plain_text code body
       /\ (code = 200 \/ code = 400 \/ code = 404 \/ code = 500).
Proof.
  intros Hu Hq.
  destruct (decide (urllib.path u = "/extract")) as [Hroute|Hroute].
  2: { unfold RequestHandler.do_GET. rewrite Hu. cbn.
       rewrite bool_decide_eq_false_2 by done. split; [reflexivity|].
       do 2 eexists. split; [reflexivity|]. tauto. }
  assert (Hfirst : exists t,
             first_item (default [VNone]
               (List.map VStr <$> parse_qs (urllib.query u) !! "path")) = Return t).
  { destruct (parse_qs (urllib.query u) !! "path") as [[|p rest]|]; cbn; eauto.
    now destruct Hq. }
  destruct Hfirst as [t Hfirst].
  pose proof (extracts_GET w self u t Hu Hroute Hfirst) as Hx.
  destruct (do_GET_extracts w self t Hx) as (pre & -> & Hw & _).
  cbn [trace result fst snd]. split; [exact (get_target_returns w self t Hx)|].
  rewrite wire_app, Hw. cbn [app].
  destruct (get_target_shape w self t Hx) as [-> | (p & -> & Htext)].
  - rewrite process_request_falsy by reflexivity.
    do 2 eexists. split; [reflexivity|]. tauto.
  - now apply routine_answers_text.
Qed.

(** X7. No request starts more than one process, and a process that is
    started is the extraction script with, as its only argument, the
    target the request yields, output captured; that target counts as
    true and [os.path.exists] returned [True] for it. *)
Theorem only_the_script_is_started m self :
  spawns (trace (handle w m self)) = []
  \/ exists t,
       extracts w m self t
       /\ truthy t = true /\ os_path_exists w t = Return true
       /\ spawns (trace (handle w m self))
            = [([VStr EXTRACT_SCRIPT_PATH; t],
                {| capture_output := true; text := true; check := false |})].
Proof.
  destruct (handle_decompose w m self)
    as [[Hs _] | (t & pre & post & Hx & Htrace & [Hpre _] & [Hpost _])];
    [now left|].
  rewrite Htrace, !spawns_app, Hpre, Hpost, app_nil_r. cbn [app].
  rewrite process_request_spawns.
  destruct (truthy t) eqn:Ht; [|now left].
  destruct (os_path_exists w t) as [[|]|e] eqn:Hex; [|now left|now left].
  right. exists t. auto.
Qed.

(** X12. Status 200 is sent, by either method, only when the request
    yields a target that [os.path.exists] accepted, the one process the
    request started is the script on that target, and that process
    ended with exit code 0. *)
Theorem success_only_after_exit_0 m self :
  In 200 (statuses (trace (handle w m self))) ->
  exists t cp,
    extracts w m self t
    /\ os_path_exists w t = Return true
    /\ spawns (trace (handle w m self)) = [([VStr EXTRACT_SCRIPT_PATH; t], RUN_OPTIONS)]
    /\ run_process w [VStr EXTRACT_SCRIPT_PATH; t] = Return cp
    /\ returncode cp = 0.
Proof.
  destruct (handle_decompose w m self)
    as [[_ Hno] | (t & pre & post & Hx & Htrace & [Hpre Hnpre] & [Hpost Hnpost])];
    [intros Hin; now destruct Hno|].
  rewrite Htrace, !statuses_app, !spawns_app, Hpre, Hpost, app_nil_r. cbn [app].
  intros [Hin | [Hin | Hin]%in_app_or]%in_app_or;
    [now destruct Hnpre | | now destruct Hnpost].
  destruct (process_request_200 w t Hin) as (Ht & Hex & cp & Hrun & Hcode).
  exists t, cp. rewrite process_request_spawns, Ht, Hex. auto.
Qed.
End Answers.

(** ** What a POST body is and is not *)

Lemma substring_prefix (s extra : string) (n : nat) :
  (n <= String.length s)%nat ->
  substring 0 n (s ++ extra) = substring 0 n s.
Proof.
  revert n. induction s as [|a s IH]; intros n Hn.
  - destruct n as [|n]; [|inversion Hn].
    change (EmptyString ++ extra) with extra. now destruct extra.
  - change (String a s ++ extra) with (String a (s ++ extra)).
    destruct n as [|n]; [reflexivity|].
    cbn [substring]. f_equal. apply IH. apply le_S_n, Hn.
Qed.

Lemma rfile_read_prefix (w : World) (s extra : string) (n : Z) :
  0 <= n <= Z.of_nat (String.length s) ->
  rfile_read w (s ++ extra) n = rfile_read w s n.
Proof.
  intros [Hlo Hhi]. unfold rfile_read.
  destruct (_ || _); [reflexivity|].
  destruct (Z.ltb n (-1)); [reflexivity|].
  destruct (Z.eqb_spec n (-1)) as [->|_]; [lia|].
  destruct (read_fault_at w n) as [[]|]; try reflexivity.
  f_equal. apply substring_prefix. lia.
Qed.

Section Body.
Context `{PyLib} (w : World).

(** X8. Bytes that follow the first Content-Length bytes of a POST body
    play no part: with a Content-Length between 0 and the number of
    bytes present, appending anything to the stream changes neither the
    response, nor the log, nor the process started. *)
Theorem bytes_after_content_length_ignored self n extra :
  py_int (headers_getitem (headers self) "Content-Length") = Return n ->
  0 <= n <= Z.of_nat (String.length (rfile self)) ->
  RequestHandler.do_POST w (with_rfile self (rfile self ++ extra))
    = RequestHandler.do_POST w self.
Proof.
  intros Hn Hrange. unfold RequestHandler.do_POST, with_rfile.
  cbn [path headers rfile client_address requestline log_date_time_string].
  rewrite Hn.
  destruct (urlparse (path self)) as [u|e]; [|reflexivity].
  cbn -[rfile_read]. case_bool_decide; [|reflexivity].
  cbn -[rfile_read].
  now rewrite (rfile_read_prefix w (rfile self) extra n Hrange).
Qed.

(** X9. A POST request to /extract whose JSON object has for path a
    non-empty list, a non-empty object or a non-zero float is answered
    500 with the text of the [TypeError] of [os.path.exists], which the
    shared routine does not catch; no process is started. *)
Theorem unusable_json_path_is_500 self t :
  extracts w POST self t ->
  truthy t = true ->
  (exists bits, t = VFloat bits) \/ (exists l, t = VList l) \/ (exists d, t = VDict d) ->
  wire (trace (RequestHandler.do_POST w self)) =
    plain_text 500
      ("An unexpected server error occurred while processing POST request: "
         ++ "stat: path should be string, bytes, os.PathLike or integer, not "
         ++ type_name t)
  /\ spawns (trace (RequestHandler.do_POST w self)) = [].
Proof.
  intros Hx Ht Hkind.
  assert (Hraise : RequestHandler.process_request w t
            = ([], Raise (Exn TypeError
                 ("stat: path should be string, bytes, os.PathLike or integer, not "
                    ++ type_name t)))).
  { unfold RequestHandler.process_request. rewrite Ht.
    destruct Hkind as [[b ->] | [[l ->] | [d ->]]]; reflexivity. }
  inversion Hx as [ | self' u n body s data t' Hu Hp Hn Hb Hs Hd Hg]; subst.
  unfold RequestHandler.do_POST. rewrite Hu.
  cbn -[rfile_read]. rewrite Hp, bool_decide_eq_true_2 by done.
  rewrite Hn. cbn -[rfile_read]. rewrite Hb. cbn. rewrite Hs. cbn.
  rewrite Hd. cbn. rewrite Hg. cbn -[encode_utf8].
  rewrite Hraise. cbn -[encode_utf8].
  pose proof (type_name_text t) as Hname.
  rewrite encode_text by valid_text. split; reflexivity.
Qed.

(** X10. A POST request to /extract whose JSON object has for path
    [false], [0], an empty list or an empty object is answered as if
    the path were missing: 400 with the "required" text, no process. *)
Theorem falsy_json_path_is_400 self t :
  extracts w POST self t ->
  In t [VBool false; VInt 0; VList []; VDict ∅] ->
  wire (trace (RequestHandler.do_POST w self)) = plain_text 400 REQUIRED
  /\ spawns (trace (RequestHandler.do_POST w self)) = [].
Proof.
  intros Hx Hin. apply (falsy_target_is_400 w POST self t Hx).
  cbn in Hin. destruct Hin as [<- | [<- | [<- | [<- | []]]]]; reflexivity.
Qed.
End Body.

(** ** Start-up, step by step *)

(** X11. Once the port is settled, [run_server] creates the listener on
    every interface at that port; if that fails the exception leaves
    [run_server] with nothing logged and nothing served, otherwise the
    start-up line naming the port is logged and the server starts
    serving on that address. *)
Theorem startup_sequence `{PyLib} (w : World) n :
  py_int (port_setting w) = Return n ->
  run_server w =
    match bind_error w ("", n) with
    | Some e => ([HTTPServerInit ("", n)], Raise e)
    | None =>
      ([HTTPServerInit ("", n);
        Print ("Server starting on port " ++ pretty n ++ "...");
        ServeForever ("", n)],
       Return tt)
    end.
Proof.
  intros Hport. unfold run_server. fold (port_setting w). rewrite Hport. cbn.
  now destruct (bind_error w ("", n)).
Qed.

(** ** These properties on the examples *)

Lemma start_failure_is_500_witness :
  wire (trace (@handle example_lib broken_script_world GET get_movie)) =
    plain_text 500
      "An unexpected server error occurred: [Errno 2] No such file or directory: '/scripts/extractor.sh'"
  /\ spawns (trace (@handle example_lib broken_script_world GET get_movie))
       = [([VStr EXTRACT_SCRIPT_PATH; VStr "/data/movie.mkv"], RUN_OPTIONS)].
Proof.
  apply (@start_failure_is_500 example_lib broken_script_world GET get_movie
           "/data/movie.mkv"
           (Exn OSError "[Errno 2] No such file or directory: '/scripts/extractor.sh'")).
  - eapply (@extracts_GET example_lib); reflexivity.
  - reflexivity.
  - reflexivity.
Defined.

Lemma script_output_is_logged_witness :
  (exists rest,
      trace (@RequestHandler.process_request example_lib failing_world (VStr "/data/movie.mkv"))
        = Print "Executing script for path: /data/movie.mkv"
            :: Subprocess [VStr EXTRACT_SCRIPT_PATH; VStr "/data/movie.mkv"] RUN_OPTIONS
            :: rest)
  /\ logged (trace (@RequestHandler.process_request example_lib failing_world
                      (VStr "/data/movie.mkv")))
       = ["Executing script for path: /data/movie.mkv";
          "Script stdout:" ++ LF ++ "partial";
          "Script stderr:" ++ LF ++ "boom"].
Proof.
  apply (@script_output_is_logged example_lib failing_world "/data/movie.mkv"
           {| returncode := 1; stdout := "partial"; stderr := "boom" |});
    reflexivity.
Defined.

Lemma post_reading_failure_is_500_witness :
  wire (trace (@RequestHandler.do_POST example_lib working_world post_negative_length)) =
    plain_text 500
      "An unexpected server error occurred while processing POST request: read length must be non-negative or -1"
  /\ spawns (trace (@RequestHandler.do_POST example_lib working_world post_negative_length))
       = [].
Proof.
  apply (@post_reading_failure_is_500 example_lib working_world post_negative_length
           {| urllib.path := "/extract"; urllib.query := "" |}
           (Exn ValueError "read length must be non-negative or -1")).
  - reflexivity.
  - reflexivity.
  - reflexivity.
  - discriminate.
  - reflexivity.
Defined.

Lemma json_without_get_is_500_witness :
  wire (trace (@RequestHandler.do_POST example_lib working_world post_array)) =
    plain_text 500
      "An unexpected server error occurred while processing POST request: 'list' object has no attribute 'get'"
  /\ spawns (trace (@RequestHandler.do_POST example_lib working_world post_array)) = [].
Proof.
  apply (@json_without_get_is_500 example_lib working_world post_array
           {| urllib.path := "/extract"; urllib.query := "" |} 2 "[]" "[]" (VList [])).
  - reflexivity.
  - reflexivity.
  - reflexivity.
  - reflexivity.
  - reflexivity.
  - reflexivity.
  - discriminate.
Defined.

Lemma get_always_answers_witness :
  result (@RequestHandler.do_GET example_lib working_world get_absent) = Return tt
  /\ exists code body,
       wire (trace (@RequestHandler.do_GET example_lib working_world get_absent))
         = plain_text code body
       /\ (code = 200 \/ code = 400 \/ code = 404 \/ code = 500).
Proof.
  apply (@get_always_answers example_lib working_world get_absent
           {| urllib.path := "/extract"; urllib.query := "path=/nonexistent/x.mkv" |}).
  - reflexivity.
  - discriminate.
Defined.

Lemma bytes_after_content_length_ignored_witness :
  @RequestHandler.do_POST example_lib working_world
      (with_rfile post_movie (rfile post_movie ++ "trailing bytes"))
    = @RequestHandler.do_POST example_lib working_world post_movie.
Proof.
  apply (@bytes_after_content_length_ignored example_lib working_world post_movie 27
           "trailing bytes").
  - reflexivity.
  - split; discriminate.
Defined.

Lemma unusable_json_path_is_500_witness :
  wire (trace (@RequestHandler.do_POST example_lib working_world post_list_path)) =
    plain_text 500
      "An unexpected server error occurred while processing POST request: stat: path should be string, bytes, os.PathLike or integer, not list"
  /\ spawns (trace (@RequestHandler.do_POST example_lib working_world post_list_path)) = [].
Proof.
  apply (@unusable_json_path_is_500 example_lib working_world post_list_path
           (VList [VStr "a"])).
  - eapply (@extracts_POST example_lib); reflexivity.
  - reflexivity.
  - right. left. eexists. reflexivity.
Defined.

Lemma falsy_json_path_is_400_witness :
  wire (trace (@RequestHandler.do_POST example_lib working_world post_zero_path))
    = plain_text 400 REQUIRED
  /\ spawns (trace (@RequestHandler.do_POST example_lib working_world post_zero_path)) = [].
Proof.
  apply (@falsy_json_path_is_400 example_lib working_world post_zero_path (VInt 0)).
  - eapply (@extracts_POST example_lib); reflexivity.
  - right. left. reflexivity.
Defined.

Lemma startup_sequence_witness :
  @run_server example_lib busy_port_world
    = ([HTTPServerInit ("", 8080)],
       Raise (Exn OSError "[Errno 98] Address already in use")).
Proof.
  apply (@startup_sequence example_lib busy_port_world 8080). reflexivity.
Defined.

Lemma success_only_after_exit_0_witness :
  exists t cp,
    extracts (H := example_lib) working_world POST post_movie t
    /\ os_path_exists working_world t = Return true
    /\ spawns (trace (@handle example_lib working_world POST post_movie))
         = [([VStr EXTRACT_SCRIPT_PATH; t], RUN_OPTIONS)]
    /\ run_process working_world [VStr EXTRACT_SCRIPT_PATH; t] = Return cp
    /\ returncode cp = 0.
Proof.
  apply (@success_only_after_exit_0 example_lib working_world POST post_movie).
  vm_compute. left. reflexivity.
Defined.
